(** * QR Code Generator API: the two operations and their HTTP routes

    A shallow embedding of
      - [project/api_key_verification_service.py]  ([api_key_verification]),
      - [project/generate_qr_code_service.py]      ([generate_qr_code]),
      - [project/server.py]                        (the two FastAPI routes),
    followed by the properties the specification states about them.

    Python values are modelled as follows: [int] is [Z] ([//] is floor
    division, [Z.div]), [str] is [string], a [dict] is a [gmap], an [Enum]
    class is an inductive type, [Optional] is [option].  Code that can raise
    runs in the monad [Eff]: explicit state passing over the process state
    [World], with a result that is either a returned value or a raised
    exception.  The collaborators that are not part of the repository (the
    [qrcode] library, [uuid.uuid4], the database) are parameters; every call
    into the library is entered, with its arguments, in a trace kept in the
    process state. *)

From stdpp Require Import base strings list gmap pretty.
From Stdlib Require Import ZArith Lia Ascii String.

Open Scope Z_scope.
Open Scope string_scope.

(** ** Exceptions and effects *)

(** A raised Python exception: its class name, what [str(e)] gives, and
    whether its class derives from [Exception] (it does not for the classes
    that derive from [BaseException] only, such as [asyncio.CancelledError]
    and [KeyboardInterrupt]). *)
Record Exn := {
  exn_class : string;
  exn_str : string;
  exn_is_Exception : bool
}.

#[global] Instance Exn_eq_dec : EqDecision Exn.
Proof. solve_decision. Defined.

Inductive Result (A : Type) : Type :=
| Return (a : A)
| Raise (e : Exn).
Arguments Return {A} a.
Arguments Raise {A} e.

(** ** The credential store (the [User] table behind Prisma) *)

(** [prisma.models.User], the fields the service reads. *)
Record User := { User_id : string; User_apiKey : string; User_role : string }.

#[global] Instance User_eq_dec : EqDecision User.
Proof. solve_decision. Defined.

(** The database as the process sees it: reachable, holding the rows of the
    [User] table, or failing every query with some exception. *)
Inductive Database :=
| DbUp (rows : list User)
| DbDown (e : Exn).

(** ** The encoder's constants and the calls made to it *)

(** [qrcode.constants.ERROR_CORRECT_*]. *)
Inductive ErrorCorrection :=
| ERROR_CORRECT_L
| ERROR_CORRECT_M
| ERROR_CORRECT_Q
| ERROR_CORRECT_H.

#[global] Instance ErrorCorrection_eq_dec : EqDecision ErrorCorrection.
Proof. solve_decision. Defined.

(** The share of damaged code words each constant lets a reader recover, in
    percent, as the library's README (quoted in the comments of
    generate_qr_code_service.py) documents them. *)
Definition redundancy_percent (c : ErrorCorrection) : Z :=
  match c with
  | ERROR_CORRECT_L => 7
  | ERROR_CORRECT_M => 15
  | ERROR_CORRECT_Q => 25
  | ERROR_CORRECT_H => 30
  end.

(** One call into the [qrcode] library, with the arguments it receives. *)
Inductive EncoderCall :=
| Call_QRCode (version : Z) (error_correction : ErrorCorrection)
              (box_size border : Z)
| Call_add_data (data : string)
| Call_make (fit : bool)
| Call_make_image (fill_color back_color : string)
| Call_save (format : string).

#[global] Instance EncoderCall_eq_dec : EqDecision EncoderCall.
Proof. solve_decision. Defined.

(** ** Process state and the effect monad *)

Record World := {
  db : Database;                      (* what [db_client] is connected to *)
  uuid_drawn : nat;                   (* how many [uuid.uuid4()] were drawn *)
  encoder_calls : list EncoderCall;   (* calls made to [qrcode], in order *)
  log : list string                   (* lines written through [logger] *)
}.

Definition Eff (A : Type) : Type := World -> Result A * World.

Definition ret {A} (a : A) : Eff A := fun w => (Return a, w).

Definition bind {A B} (m : Eff A) (k : A -> Eff B) : Eff B :=
  fun w =>
    match m w with
    | (Return a, w') => k a w'
    | (Raise e, w') => (Raise e, w')
    end.

Definition raise {A} (e : Exn) : Eff A := fun w => (Raise e, w).

(** [try: body except Exception as e: handler]: the handler runs for an
    exception whose class derives from [Exception]; any other exception
    passes through. *)
Definition try_except {A} (body : Eff A) (handler : Exn -> Eff A) : Eff A :=
  fun w =>
    match body w with
    | (Return a, w') => (Return a, w')
    | (Raise e, w') =>
        if exn_is_Exception e then handler e w' else (Raise e, w')
    end.

Declare Scope eff_scope.
Delimit Scope eff_scope with eff.
Notation "x <- m ;; k" := (bind m (fun x => k))
  (at level 100, m at next level, right associativity) : eff_scope.
Notation "m ;;; k" := (bind m (fun _ => k))
  (at level 100, right associativity) : eff_scope.

(** A call [c] into the [qrcode] library whose outcome is [r]: the call is
    entered in the trace, and it raises or returns as the library did. *)
Definition library_call {A} (c : EncoderCall) (r : Exn + A) : Eff A :=
  fun w =>
    (match r with inl e => Raise e | inr a => Return a end,
     {| db := db w; uuid_drawn := uuid_drawn w;
        encoder_calls := (encoder_calls w ++ [c])%list; log := log w |}).

Definition logger_exception (msg : string) : Eff unit :=
  fun w => (Return tt,
            {| db := db w; uuid_drawn := uuid_drawn w;
               encoder_calls := encoder_calls w; log := (log w ++ [msg])%list |}).

(** ** api_key_verification_service.py *)

Record APIKeyVerificationResponse := {
  is_valid : bool;
  user_id : option string;
  role : option string
}.

#[global] Instance APIKeyVerificationResponse_eq_dec :
  EqDecision APIKeyVerificationResponse.
Proof. solve_decision. Defined.

(** [User.prisma().find_unique(where={"apiKey": api_key})]: the row whose
    [apiKey] column equals the argument, [None] when there is none; a query
    against an unreachable database raises. *)
Definition find_unique_apiKey (api_key : string) : Eff (option User) :=
  fun w =>
    match db w with
    | DbUp rows =>
        (Return (List.find (fun u => bool_decide (User_apiKey u = api_key)) rows), w)
    | DbDown e => (Raise e, w)
    end.

Definition api_key_verification (api_key : string)
  : Eff APIKeyVerificationResponse :=
  (user <- find_unique_apiKey api_key ;;
   match user with
   | Some user =>
       ret {| is_valid := true;
              user_id := Some (User_id user);
              role := Some (User_role user) |}
   | None =>
       ret {| is_valid := false; user_id := None; role := None |}
   end)%eff.

(** ** generate_qr_code_service.py: data *)

Record GenerateQRCodeResponse := {
  success : bool;
  message : string;
  qrCodeId : string;
  qrCodeURL : string
}.

#[global] Instance GenerateQRCodeResponse_eq_dec :
  EqDecision GenerateQRCodeResponse.
Proof. solve_decision. Defined.

(** The three [Enum] classes the service module declares.  A member is
    written [CorrectionLevel.Q], as in the source. *)
Module ContentType.
Inductive t := URL | TEXT | CONTACT.
#[global] Instance ContentType_eq_dec : EqDecision t.
Proof. solve_decision. Defined.
End ContentType.

Module CorrectionLevel.
Inductive t := L | M | Q | H.
#[global] Instance CorrectionLevel_eq_dec : EqDecision t.
Proof. solve_decision. Defined.
Definition name (c : t) : string :=
  match c with L => "L" | M => "M" | Q => "Q" | H => "H" end.
Definition to_nat (c : t) : nat :=
  match c with L => 0 | M => 1 | Q => 2 | H => 3 end%nat.
Definition of_nat (n : nat) : t :=
  match n with 0 => L | 1 => M | 2 => Q | _ => H end%nat.
#[global] Instance CorrectionLevel_countable : Countable t.
Proof. apply (inj_countable' to_nat of_nat). by intros []. Defined.
End CorrectionLevel.

Module Format.
Inductive t := PNG | SVG.
#[global] Instance Format_eq_dec : EqDecision t.
Proof. solve_decision. Defined.
Definition name (f : t) : string :=
  match f with PNG => "PNG" | SVG => "SVG" end.
End Format.

(** Modelled from the spec: the module [prisma.enums] of the generated Prisma
    client, which server.py imports for the types of the route's parameters
    and which is not part of the sources.  Section 6 of the specification
    lists the members: content type URL, TEXT, CONTACT; correction level L, M,
    Q, H; format PNG, SVG.  These are classes of their own, distinct from the
    classes of the same names that generate_qr_code_service.py declares. *)
Module prisma_enums.
Module ContentType.
Inductive t := URL | TEXT | CONTACT.
#[global] Instance prisma_enums_ContentType_eq_dec : EqDecision t.
Proof. solve_decision. Defined.
End ContentType.

Module CorrectionLevel.
Inductive t := L | M | Q | H.
#[global] Instance prisma_enums_CorrectionLevel_eq_dec : EqDecision t.
Proof. solve_decision. Defined.
Definition name (c : t) : string :=
  match c with L => "L" | M => "M" | Q => "Q" | H => "H" end.
Definition to_nat (c : t) : nat :=
  match c with L => 0 | M => 1 | Q => 2 | H => 3 end%nat.
Definition of_nat (n : nat) : t :=
  match n with 0 => L | 1 => M | 2 => Q | _ => H end%nat.
#[global] Instance prisma_enums_CorrectionLevel_countable : Countable t.
Proof. apply (inj_countable' to_nat of_nat). by intros []. Defined.
End CorrectionLevel.

Module Format.
Inductive t := PNG | SVG.
#[global] Instance prisma_enums_Format_eq_dec : EqDecision t.
Proof. solve_decision. Defined.
End Format.
End prisma_enums.

(** Python checks no parameter type at run time: the object bound to an
    enum-typed parameter of [generate_qr_code] is a member of the service's
    own class ([Svc]) or of the class of the same name in [prisma.enums]
    ([Prisma]).  Members of two different [Enum] classes are different
    objects and never compare equal, so [==] and dictionary lookup on these
    values are equality on [Member]. *)
Inductive Member (Own Gen : Type) : Type :=
| Svc (m : Own)
| Prisma (m : Gen).
Arguments Svc {Own Gen} m.
Arguments Prisma {Own Gen} m.

#[global] Instance Member_eq_dec `{EqDecision Own, EqDecision Gen} :
  EqDecision (Member Own Gen).
Proof. solve_decision. Defined.

Definition Member_to_sum {Own Gen} (x : Member Own Gen) : Own + Gen :=
  match x with Svc m => inl m | Prisma m => inr m end.
Definition Member_of_sum {Own Gen} (x : Own + Gen) : Member Own Gen :=
  match x with inl m => Svc m | inr m => Prisma m end.

#[global] Instance Member_countable `{Countable Own, Countable Gen} :
  Countable (Member Own Gen).
Proof. apply (inj_countable' Member_to_sum Member_of_sum). by intros []. Defined.

Abbreviation ContentTypeArg :=
  (Member ContentType.t prisma_enums.ContentType.t).
Abbreviation CorrectionLevelArg :=
  (Member CorrectionLevel.t prisma_enums.CorrectionLevel.t).
Abbreviation FormatArg :=
  (Member Format.t prisma_enums.Format.t).

(** [repr] of a correction-level member, which is what [str] of the
    [KeyError] raised for it shows. *)
Definition repr_level (k : CorrectionLevelArg) : string :=
  match k with
  | Svc c =>
      "<CorrectionLevel." ++ CorrectionLevel.name c ++ ": '"
        ++ CorrectionLevel.name c ++ "'>"
  | Prisma c =>
      "<CorrectionLevel." ++ prisma_enums.CorrectionLevel.name c ++ ": '"
        ++ prisma_enums.CorrectionLevel.name c ++ "'>"
  end.

Definition KeyError (msg : string) : Exn :=
  {| exn_class := "KeyError"; exn_str := msg; exn_is_Exception := true |}.

(** [d[k]] on a dictionary: the value stored under a key equal to [k], or a
    [KeyError]. *)
Definition getitem {V} (d : gmap CorrectionLevelArg V) (k : CorrectionLevelArg)
  : Eff V :=
  match d !! k with
  | Some v => ret v
  | None => raise (KeyError (repr_level k))
  end.

(** [str.lower], on the ASCII letters. *)
Definition ascii_lower (c : ascii) : ascii :=
  let n := nat_of_ascii c in
  if ((65 <=? n) && (n <=? 90))%nat then ascii_of_nat (n + 32) else c.

Fixpoint lower (s : string) : string :=
  match s with
  | EmptyString => EmptyString
  | String c s' => String (ascii_lower c) (lower s')
  end.

(** [io.BytesIO]: the bytes written and the stream position. *)
Record BytesIO := { getvalue : list Byte.byte; tell : Z }.

Definition BytesIO_new : BytesIO := {| getvalue := []; tell := 0 |}.

Definition seek (io : BytesIO) (pos : Z) : BytesIO :=
  {| getvalue := getvalue io; tell := pos |}.

(** The [qrcode] library, version 7.4.2: an external collaborator, taken as an
    interface.  Every entry point either raises or returns; [QRCode] objects
    are mutable, so a method returns the object as the call leaves it. *)
Class QRCodeLib := {
  QRCode : Type;
  Image : Type;
  QRCode_init : Z -> ErrorCorrection -> Z -> Z -> Exn + QRCode;
  QRCode_add_data : QRCode -> string -> Exn + QRCode;
  QRCode_make : QRCode -> bool -> Exn + QRCode;
  QRCode_make_image : QRCode -> string -> string -> Exn + Image;
  Image_save : Image -> BytesIO -> string -> Exn + BytesIO
}.

(** ** generate_qr_code_service.py: the operation *)

(** The constant the dictionary of lines 60-65 stores for each member of the
    service's [CorrectionLevel]. *)
Definition constant_of_level (c : CorrectionLevel.t) : ErrorCorrection :=
  match c with
  | CorrectionLevel.L => ERROR_CORRECT_L
  | CorrectionLevel.M => ERROR_CORRECT_M
  | CorrectionLevel.Q => ERROR_CORRECT_Q
  | CorrectionLevel.H => ERROR_CORRECT_H
  end.

(** The value of the local variable [img_format] (line 1358). *)
Definition img_format_of (format : FormatArg) : string :=
  if bool_decide (format = Svc Format.PNG) then "PNG" else "SVG".

(** The library calls of one complete run of [generate_qr_code], in order. *)
Definition calls_of_request (ec : ErrorCorrection) (content : string)
    (size : Z) (color img_format : string) : list EncoderCall :=
  [ Call_QRCode 1 ec (size `div` 40) 4;
    Call_add_data content;
    Call_make true;
    Call_make_image color "white";
    Call_save img_format ].

Section Generation.

Context {lib : QRCodeLib}.

(** [str(uuid.uuid4())] on the n-th draw the process makes. *)
Variable uuid_source : nat -> string.

(** The five entry points of the library the operation uses; each call is
    made through one of these, so the trace holds exactly the calls made,
    with the arguments they were made with. *)
Definition qrcode_QRCode (version : Z) (error_correction : ErrorCorrection)
    (box_size border : Z) : Eff QRCode :=
  library_call (Call_QRCode version error_correction box_size border)
    (QRCode_init version error_correction box_size border).

Definition qr_add_data (qr : QRCode) (data : string) : Eff QRCode :=
  library_call (Call_add_data data) (QRCode_add_data qr data).

Definition qr_make (qr : QRCode) (fit : bool) : Eff QRCode :=
  library_call (Call_make fit) (QRCode_make qr fit).

Definition qr_make_image (qr : QRCode) (fill_color back_color : string)
  : Eff Image :=
  library_call (Call_make_image fill_color back_color)
    (QRCode_make_image qr fill_color back_color).

Definition img_save (img : Image) (io : BytesIO) (format : string)
  : Eff BytesIO :=
  library_call (Call_save format) (Image_save img io format).

Definition uuid4 : Eff string :=
  fun w => (Return (uuid_source (uuid_drawn w)),
            {| db := db w; uuid_drawn := S (uuid_drawn w);
               encoder_calls := encoder_calls w; log := log w |}).

(** The dictionary built at lines 60-65. *)
Definition error_correction_mapping : gmap CorrectionLevelArg ErrorCorrection :=
  <[Svc CorrectionLevel.H := ERROR_CORRECT_H]>
  (<[Svc CorrectionLevel.Q := ERROR_CORRECT_Q]>
  (<[Svc CorrectionLevel.M := ERROR_CORRECT_M]>
  (<[Svc CorrectionLevel.L := ERROR_CORRECT_L]> ∅))).

Definition generate_qr_code
    (contentType : ContentTypeArg) (content : string) (size : Z)
    (color : string) (correctionLevel : CorrectionLevelArg)
    (format : FormatArg) : Eff GenerateQRCodeResponse :=
  (error_correction <- getitem error_correction_mapping correctionLevel ;;
   let box_size := size `div` 40 in
   qr <- qrcode_QRCode 1 error_correction box_size 4 ;;
   qr <- qr_add_data qr content ;;
   qr <- qr_make qr true ;;
   img <- qr_make_image qr color "white" ;;
   let img_io := BytesIO_new in
   let img_format :=
     if bool_decide (format = Svc Format.PNG) then "PNG" else "SVG" in
   img_io <- img_save img img_io img_format ;;
   let img_io := seek img_io 0 in
   qr_code_id <- uuid4 ;;
   let qr_code_url := "/path/to/qr/" ++ qr_code_id ++ "." ++ lower img_format in
   ret {| success := true;
          message := "QR Code generated successfully.";
          qrCodeId := qr_code_id;
          qrCodeURL := qr_code_url |})%eff.

(** The chain of library calls of one run, as a value: the exception of the
    first call that raises, or the buffer the image was saved to. *)
Definition encoder_outcome (ec : ErrorCorrection) (content : string) (size : Z)
    (color img_format : string) : Exn + BytesIO :=
  match QRCode_init 1 ec (size `div` 40) 4 with
  | inl e => inl e
  | inr qr =>
      match QRCode_add_data qr content with
      | inl e => inl e
      | inr qr =>
          match QRCode_make qr true with
          | inl e => inl e
          | inr qr =>
              match QRCode_make_image qr color "white" with
              | inl e => inl e
              | inr img => Image_save img BytesIO_new img_format
              end
          end
      end
  end.

End Generation.

(** ** server.py *)

(** What the routes pass as [content] to [Response]: Python accepts any
    object there. *)
Inductive Content :=
| Content_None
| Content_bytes (b : list Byte.byte)
| Content_str (s : string)
| Content_dict (d : gmap string string).

(** A [fastapi.responses.Response] object once constructed. *)
Record Response := {
  body : list Byte.byte;
  status_code : Z;
  media_type : string
}.

Definition AttributeError (msg : string) : Exn :=
  {| exn_class := "AttributeError"; exn_str := msg;
     exn_is_Exception := true |}.

(** [Response(content=..., status_code=..., media_type=...)]: the constructor
    renders the content at once; [None] gives no bytes, [bytes] are taken as
    they are, and for anything else it calls [content.encode(charset)], which
    a [str] has and a [dict] has not. *)
Definition Response_init (content : Content) (status_code : Z)
    (media_type : string) : Exn + Response :=
  match content with
  | Content_None =>
      inr {| body := []; status_code := status_code;
             media_type := media_type |}
  | Content_bytes b =>
      inr {| body := b; status_code := status_code;
             media_type := media_type |}
  | Content_str s =>
      inr {| body := list_byte_of_string s; status_code := status_code;
             media_type := media_type |}
  | Content_dict _ =>
      inl (AttributeError "'dict' object has no attribute 'encode'")
  end.

(** [jsonable_encoder] leaves a dictionary of strings as it is: the result
    is again a [dict]. *)
Definition jsonable_encoder (d : gmap string string) : gmap string string := d.

(** An outcome of a function that either raises or returns, as an effect. *)
Definition of_outcome {A} (r : Exn + A) : Eff A :=
  fun w => (match r with inl e => Raise e | inr a => Return a end, w).

(** The [except Exception as e] block, the same in both routes. *)
Definition error_response {A} (e : Exn) : Eff (A + Response) :=
  (logger_exception "Error processing request" ;;;
   let res : gmap string string := ∅ in
   let res := <["error" := exn_str e]> res in
   response <- of_outcome
                 (Response_init (Content_dict (jsonable_encoder res)) 500
                    "application/json") ;;
   ret (inr response))%eff.

Definition api_post_api_key_verification (api_key : string)
  : Eff (APIKeyVerificationResponse + Response) :=
  try_except
    (res <- api_key_verification api_key ;; ret (inl res))%eff
    error_response.

Section Server.

Context {lib : QRCodeLib}.
Variable uuid_source : nat -> string.

Definition api_post_generate_qr_code
    (contentType : prisma_enums.ContentType.t) (content : string) (size : Z)
    (color : string) (correctionLevel : prisma_enums.CorrectionLevel.t)
    (format : prisma_enums.Format.t)
  : Eff (GenerateQRCodeResponse + Response) :=
  try_except
    (res <- generate_qr_code uuid_source (Prisma contentType) content size
              color (Prisma correctionLevel) (Prisma format) ;;
     ret (inl res))%eff
    error_response.

End Server.

(** ** Stand-ins for the collaborators, to run the model on concrete requests *)

(** A [QRCode] object of the stand-in encoder: the constructor's arguments and
    the data added so far. *)
Record QRCodeObj := {
  qr_version : Z;
  qr_error_correction : ErrorCorrection;
  qr_box_size : Z;
  qr_border : Z;
  qr_data : string
}.

(** Bytes a version-40 symbol holds in byte mode, per correction level. *)
Definition capacity (c : ErrorCorrection) : Z :=
  match c with
  | ERROR_CORRECT_L => 2953
  | ERROR_CORRECT_M => 2331
  | ERROR_CORRECT_Q => 1663
  | ERROR_CORRECT_H => 1273
  end.

Definition ValueError (msg : string) : Exn :=
  {| exn_class := "ValueError"; exn_str := msg; exn_is_Exception := true |}.

(** A stand-in for [qrcode] 7.4.2 with its default (Pillow) image class, as
    far as these checks go: the constructor refuses, in this order, a box
    size that is not positive, a negative border and a version outside
    1..40; [make] refuses data beyond the byte capacity of the largest
    symbol; [save] writes PNG and refuses any other format name, "SVG"
    included, with a [KeyError].  Colour strings are not checked, and the
    capacity does not account for the denser numeric and alphanumeric
    modes. *)
Definition qrcode_double : QRCodeLib := {|
  QRCode := QRCodeObj;
  Image := QRCodeObj * (string * string);
  QRCode_init := fun version ec box_size border =>
    if bool_decide (box_size <= 0)
    then inl (ValueError ("Invalid box size (was " ++ pretty box_size
                            ++ ", expected larger than 0)"))
    else if bool_decide (border < 0)
    then inl (ValueError ("Invalid border value (was " ++ pretty border
                            ++ ", expected 0 or larger)"))
    else if bool_decide (version < 1 \/ 40 < version)
    then inl (ValueError ("Invalid version (was " ++ pretty version
                            ++ ", expected 1 to 40)"))
    else inr {| qr_version := version; qr_error_correction := ec;
                qr_box_size := box_size; qr_border := border;
                qr_data := "" |};
  QRCode_add_data := fun qr data =>
    inr {| qr_version := qr_version qr;
           qr_error_correction := qr_error_correction qr;
           qr_box_size := qr_box_size qr; qr_border := qr_border qr;
           qr_data := qr_data qr ++ data |};
  QRCode_make := fun qr fit =>
    if bool_decide (capacity (qr_error_correction qr)
                      < Z.of_nat (String.length (qr_data qr)))
    then inl {| exn_class := "DataOverflowError"; exn_str := "";
                exn_is_Exception := true |}
    else inr qr;
  QRCode_make_image := fun qr fill_color back_color =>
    inr (qr, (fill_color, back_color));
  Image_save := fun img io format =>
    if bool_decide (format = "PNG")
    then
      let bytes := list_byte_of_string format in
      inr {| getvalue := (getvalue io ++ bytes)%list;
             tell := tell io + Z.of_nat (List.length bytes) |}
    else inl (KeyError ("'" ++ format ++ "'"))
|}.

(** A stand-in for [uuid.uuid4]: the n-th draw is a fixed prefix followed by
    [n] in decimal, so no two draws collide. *)
Definition uuid_double (n : nat) : string :=
  "00000000-0000-4000-8000-" ++ pretty n.

Definition example_rows : list User :=
  [ {| User_id := "u1"; User_apiKey := "key-alice"; User_role := "ADMIN" |};
    {| User_id := "u2"; User_apiKey := "key-bob"; User_role := "USER" |} ].

Definition example_world : World :=
  {| db := DbUp example_rows; uuid_drawn := 0; encoder_calls := []; log := [] |}.

Definition down_error : Exn :=
  {| exn_class := "ClientNotConnectedError";
     exn_str := "Client is not connected to the query engine";
     exn_is_Exception := true |}.

(** A request cancelled while it waits for the store. *)
Definition cancelled_error : Exn :=
  {| exn_class := "CancelledError"; exn_str := "";
     exn_is_Exception := false |}.

Definition cancelled_world : World :=
  {| db := DbDown cancelled_error; uuid_drawn := 0; encoder_calls := [];
     log := [] |}.

Definition down_world : World :=
  {| db := DbDown down_error; uuid_drawn := 0; encoder_calls := []; log := [] |}.

Definition example_response : GenerateQRCodeResponse :=
  {| success := true;
     message := "QR Code generated successfully.";
     qrCodeId := "00000000-0000-4000-8000-0";
     qrCodeURL := "/path/to/qr/00000000-0000-4000-8000-0.png" |}.

Definition example_world_after : World :=
  {| db := DbUp example_rows; uuid_drawn := 1;
     encoder_calls :=
       [ Call_QRCode 1 ERROR_CORRECT_Q 7 4;
         Call_add_data "https://example.com";
         Call_make true;
         Call_make_image "#00008B" "white";
         Call_save "PNG" ];
     log := [] |}.

Definition second_response : GenerateQRCodeResponse :=
  {| success := true;
     message := "QR Code generated successfully.";
     qrCodeId := "00000000-0000-4000-8000-1";
     qrCodeURL := "/path/to/qr/00000000-0000-4000-8000-1.png" |}.

(** * Properties *)

(** ** The effect monad *)

Lemma bind_Return {A B} (m : Eff A) (k : A -> Eff B) w a w' :
  m w = (Return a, w') -> bind m k w = k a w'.
Proof. intros Hm. unfold bind. by rewrite Hm. Qed.

Lemma bind_Raise {A B} (m : Eff A) (k : A -> Eff B) w e w' :
  m w = (Raise e, w') -> bind m k w = (Raise e, w').
Proof. intros Hm. unfold bind. by rewrite Hm. Qed.

Lemma try_except_Return {A} (body : Eff A) handler w a w' :
  body w = (Return a, w') -> try_except body handler w = (Return a, w').
Proof. intros Hb. unfold try_except. by rewrite Hb. Qed.

Lemma try_except_Raise {A} (body : Eff A) handler w e w' :
  body w = (Raise e, w') ->
  exn_is_Exception e = true ->
  try_except body handler w = handler e w'.
Proof. intros Hb He. unfold try_except. by rewrite Hb, He. Qed.

Lemma try_except_pass {A} (body : Eff A) handler w e w' :
  body w = (Raise e, w') ->
  exn_is_Exception e = false ->
  try_except body handler w = (Raise e, w').
Proof. intros Hb He. unfold try_except. by rewrite Hb, He. Qed.

(** The [except] block logs one line and then raises itself: the content it
    hands to [Response] is a [dict]. *)
Lemma error_response_raises {A} (e : Exn) (w : World) :
  error_response (A := A) e w =
    (Raise (AttributeError "'dict' object has no attribute 'encode'"),
     {| db := db w; uuid_drawn := uuid_drawn w;
        encoder_calls := encoder_calls w;
        log := (log w ++ ["Error processing request"])%list |}).
Proof. reflexivity. Qed.

(** What the [try]/[except] of a route makes of its body. *)
Lemma route_passes {A} (body : Eff A) (a : A) (w w' : World) :
  body w = (Return a, w') ->
  try_except (bind body (fun res => ret (inl res)))
    (error_response (A := A)) w = (Return (inl a), w').
Proof.
  intros Hb. apply try_except_Return. by erewrite bind_Return.
Qed.

Lemma route_catches {A} (body : Eff A) (e : Exn) (w w' : World) :
  body w = (Raise e, w') ->
  exn_is_Exception e = true ->
  try_except (bind body (fun res => ret (inl res)))
    (error_response (A := A)) w =
    (Raise (AttributeError "'dict' object has no attribute 'encode'"),
     {| db := db w'; uuid_drawn := uuid_drawn w';
        encoder_calls := encoder_calls w';
        log := (log w' ++ ["Error processing request"])%list |}).
Proof.
  intros Hb He.
  erewrite try_except_Raise; [apply error_response_raises| |done].
  by apply bind_Raise.
Qed.

Lemma route_lets_through {A} (body : Eff A) (e : Exn) (w w' : World) :
  body w = (Raise e, w') ->
  exn_is_Exception e = false ->
  try_except (bind body (fun res => ret (inl res)))
    (error_response (A := A)) w = (Raise e, w').
Proof.
  intros Hb He. apply try_except_pass; [|done]. by apply bind_Raise.
Qed.

(** ** Looking a key up in the [User] table *)

Lemma find_row_present (rows : list User) (u : User) :
  NoDup (User_apiKey <$> rows) ->
  u ∈ rows ->
  List.find (fun v => bool_decide (User_apiKey v = User_apiKey u)) rows = Some u.
Proof.
  induction rows as [|v rows IH]; intros Hnd Hin.
  - by apply elem_of_nil in Hin.
  - rewrite fmap_cons in Hnd. apply NoDup_cons in Hnd as [Hv Hnd].
    simpl. case_bool_decide as Hk.
    + apply elem_of_cons in Hin as [->|Hin]; [done|].
      exfalso. apply Hv. rewrite Hk. apply list_elem_of_fmap. by exists u.
    + apply elem_of_cons in Hin as [->|Hin]; [done|]. by apply IH.
Qed.

Lemma find_row_absent (rows : list User) (api_key : string) :
  (forall u, u ∈ rows -> User_apiKey u <> api_key) ->
  List.find (fun v => bool_decide (User_apiKey v = api_key)) rows = None.
Proof.
  induction rows as [|v rows IH]; intros Hno; [done|].
  simpl. case_bool_decide as Hk.
  - exfalso. apply (Hno v); [apply elem_of_cons; by left | done].
  - apply IH. intros u Hu. apply Hno. apply elem_of_cons. by right.
Qed.

(** The verification operation reads the store and writes nothing. *)
Lemma api_key_verification_world (api_key : string) (w : World) :
  snd (api_key_verification api_key w) = w.
Proof.
  unfold api_key_verification, bind, find_unique_apiKey.
  destruct (db w) as [rows|e]; [|done].
  by destruct (List.find _ rows).
Qed.

(** C1.  With the store reachable and [apiKey] unique in it: for a key that
    some record carries, the verify route returns the model (not an error
    response) with [is_valid = true] and that record's id and role; for a key
    that no record carries it returns the model with [is_valid = false] and
    neither id nor role.  In both cases the process state is left as it was. *)
Theorem verify_route_found_or_absent
    (rows : list User) (api_key : string) (w : World) :
  db w = DbUp rows ->
  NoDup (User_apiKey <$> rows) ->
  (forall u, u ∈ rows -> User_apiKey u = api_key ->
     api_post_api_key_verification api_key w =
       (Return (inl {| is_valid := true;
                       user_id := Some (User_id u);
                       role := Some (User_role u) |}), w))
  /\ ((forall u, u ∈ rows -> User_apiKey u <> api_key) ->
      api_post_api_key_verification api_key w =
        (Return (inl {| is_valid := false; user_id := None; role := None |}),
         w)).
Proof.
  intros Hdb Hnd.
  unfold api_post_api_key_verification, try_except, api_key_verification,
    bind, find_unique_apiKey, ret.
  rewrite Hdb. split.
  - intros u Hin <-. by rewrite (find_row_present rows u).
  - intros Hno. by rewrite (find_row_absent rows api_key).
Qed.

Lemma verify_route_found_or_absent_witness :
  api_post_api_key_verification "key-bob" example_world =
    (Return (inl {| is_valid := true; user_id := Some "u2";
                    role := Some "USER" |}), example_world)
  /\ api_post_api_key_verification "bogus" example_world =
       (Return (inl {| is_valid := false; user_id := None; role := None |}),
        example_world).
Proof.
  assert (Hnd : NoDup (User_apiKey <$> example_rows)).
  { apply (bool_decide_unpack _). vm_compute. exact I. }
  destruct (verify_route_found_or_absent example_rows "key-bob" example_world
              eq_refl Hnd) as [Hfound _].
  destruct (verify_route_found_or_absent example_rows "bogus" example_world
              eq_refl Hnd) as [_ Habsent].
  split.
  - apply (Hfound {| User_id := "u2"; User_apiKey := "key-bob";
                     User_role := "USER" |}); [|reflexivity].
    apply (bool_decide_unpack _). vm_compute. exact I.
  - apply Habsent. intros u Hu.
    apply elem_of_cons in Hu as [->|Hu]; [by vm_compute|].
    apply elem_of_cons in Hu as [->|Hu]; [by vm_compute|].
    by apply elem_of_nil in Hu.
Defined.

(** The result of the verification operation depends on the store only. *)
Lemma api_key_verification_db (api_key : string) (w1 w2 : World) :
  db w1 = db w2 ->
  fst (api_key_verification api_key w1) = fst (api_key_verification api_key w2).
Proof.
  intros Hdb.
  unfold api_key_verification, bind, find_unique_apiKey. rewrite Hdb.
  destruct (db w2) as [rows|e]; [|done].
  by destruct (List.find _ rows).
Qed.

Lemma verify_route_db (api_key : string) (w : World) :
  db (snd (api_post_api_key_verification api_key w)) = db w.
Proof.
  unfold api_post_api_key_verification, try_except, bind, ret.
  pose proof (api_key_verification_world api_key w) as Hw.
  destruct (api_key_verification api_key w) as [[r|e] w']; simpl in Hw;
    subst w'; [done|].
  by destruct (exn_is_Exception e).
Qed.

Lemma verify_route_fst (api_key : string) (w1 w2 : World) :
  db w1 = db w2 ->
  fst (api_post_api_key_verification api_key w1) =
  fst (api_post_api_key_verification api_key w2).
Proof.
  intros Hdb. apply (api_key_verification_db api_key) in Hdb.
  unfold api_post_api_key_verification, try_except, bind, ret.
  destruct (api_key_verification api_key w1) as [[r1|e1] w1'],
           (api_key_verification api_key w2) as [[r2|e2] w2'];
    simpl in Hdb; try discriminate; inversion Hdb; subst; [done|].
  by destruct (exn_is_Exception e2).
Qed.

(** C9.  Verification is idempotent and deterministic: the operation leaves
    the process state (the credential store included) exactly as it found it,
    so calling it again with the same key gives the same result; and two
    successive requests on the verify route with the same key leave the store
    as it was and get the same response. *)
Theorem verification_idempotent (api_key : string) (w : World) :
  snd (api_key_verification api_key w) = w
  /\ api_key_verification api_key (snd (api_key_verification api_key w))
     = api_key_verification api_key w
  /\ db (snd (api_post_api_key_verification api_key w)) = db w
  /\ fst (api_post_api_key_verification api_key
            (snd (api_post_api_key_verification api_key w)))
     = fst (api_post_api_key_verification api_key w).
Proof.
  pose proof (api_key_verification_world api_key w) as Hw.
  repeat split.
  - exact Hw.
  - by rewrite Hw.
  - apply verify_route_db.
  - apply verify_route_fst, verify_route_db.
Qed.

(** ** The generation operation *)

Lemma error_correction_mapping_Svc (c : CorrectionLevel.t) :
  error_correction_mapping !! (Svc c : CorrectionLevelArg)
  = Some (constant_of_level c).
Proof. by destruct c; vm_compute. Qed.

Lemma error_correction_mapping_Prisma (c : prisma_enums.CorrectionLevel.t) :
  error_correction_mapping !! (Prisma c : CorrectionLevelArg) = None.
Proof. by destruct c; vm_compute. Qed.

Lemma getitem_Svc (c : CorrectionLevel.t) (w : World) :
  getitem error_correction_mapping (Svc c) w = (Return (constant_of_level c), w).
Proof. unfold getitem. by rewrite error_correction_mapping_Svc. Qed.

Lemma getitem_Prisma (c : prisma_enums.CorrectionLevel.t) (w : World) :
  getitem error_correction_mapping (Prisma c) w =
    (Raise (KeyError (repr_level (Prisma c))), w).
Proof. unfold getitem. by rewrite error_correction_mapping_Prisma. Qed.

Section GenerationProperties.

Context {lib : QRCodeLib}.
Variable uuid_source : nat -> string.

Ltac run_generate :=
  unfold generate_qr_code; unfold bind at 1;
  rewrite ?getitem_Svc, ?getitem_Prisma;
  unfold bind, qrcode_QRCode, qr_add_data, qr_make, qr_make_image, img_save,
    library_call, uuid4, ret; simpl.

(** A call with a level that is not a key of the dictionary raises [KeyError]
    before the library is reached. *)
Lemma generate_Prisma_level contentType content size color c format w :
  generate_qr_code uuid_source contentType content size color
    (Prisma c) format w =
    (Raise (KeyError (repr_level (Prisma c))), w).
Proof. by run_generate. Qed.

(** What a call that returns has done: the level was a key of the dictionary,
    each of the five library calls returned, one identifier was drawn. *)
Lemma generate_Return_inv contentType content size color level format w r w' :
  generate_qr_code uuid_source contentType content size color
    level format w = (Return r, w') ->
  exists c qr1 qr2 qr3 img io,
    level = Svc c
    /\ QRCode_init 1 (constant_of_level c) (size `div` 40) 4 = inr qr1
    /\ QRCode_add_data qr1 content = inr qr2
    /\ QRCode_make qr2 true = inr qr3
    /\ QRCode_make_image qr3 color "white" = inr img
    /\ Image_save img BytesIO_new (img_format_of format) = inr io
    /\ r = {| success := true;
              message := "QR Code generated successfully.";
              qrCodeId := uuid_source (uuid_drawn w);
              qrCodeURL := "/path/to/qr/" ++ uuid_source (uuid_drawn w)
                             ++ "." ++ lower (img_format_of format) |}
    /\ w' = {| db := db w; uuid_drawn := S (uuid_drawn w);
               encoder_calls :=
                 (encoder_calls w ++
                  calls_of_request (constant_of_level c) content size color
                    (img_format_of format))%list;
               log := log w |}.
Proof.
  destruct level as [c|c]; [|by rewrite generate_Prisma_level].
  run_generate. fold (img_format_of format).
  destruct (QRCode_init _ _ _ _) as [e1|qr1] eqn:E1; [done|].
  destruct (QRCode_add_data qr1 content) as [e2|qr2] eqn:E2; [done|].
  destruct (QRCode_make qr2 true) as [e3|qr3] eqn:E3; [done|].
  destruct (QRCode_make_image qr3 color "white") as [e4|img] eqn:E4; [done|].
  destruct (Image_save img BytesIO_new _) as [e5|io] eqn:E5; [done|].
  intros [= <- <-].
  exists c, qr1, qr2, qr3, img, io.
  repeat split; try done.
  unfold calls_of_request. by rewrite <- !app_assoc.
Qed.

(** Whatever the outcome, the library calls a run adds to the trace are an
    initial part of [calls_of_request], and with a level of the service's own
    class the constructor call is among them. *)
Lemma generate_calls contentType content size color level format w :
  exists calls,
    encoder_calls
      (snd (generate_qr_code uuid_source contentType content size color
              level format w))
    = (encoder_calls w ++ calls)%list
    /\ match level with
       | Svc c =>
           calls `prefix_of`
             calls_of_request (constant_of_level c) content size color
               (img_format_of format)
           /\ exists rest,
                calls = Call_QRCode 1 (constant_of_level c) (size `div` 40) 4
                          :: rest
       | Prisma _ => calls = []
       end.
Proof.
  destruct level as [c|c].
  2:{ exists []. rewrite generate_Prisma_level. simpl.
      by rewrite app_nil_r. }
  run_generate. fold (img_format_of format). unfold calls_of_request.
  destruct (QRCode_init _ _ _ _) as [e1|qr1]; simpl.
  { eexists. split; [done|]. split; [|by eexists].
    by eexists [_; _; _; _]. }
  destruct (QRCode_add_data qr1 content) as [e2|qr2]; simpl.
  { rewrite <- !app_assoc. eexists. split; [done|]. simpl.
    split; [|by eexists]. by eexists [_; _; _]. }
  destruct (QRCode_make qr2 true) as [e3|qr3]; simpl.
  { rewrite <- !app_assoc. eexists. split; [done|]. simpl.
    split; [|by eexists]. by eexists [_; _]. }
  destruct (QRCode_make_image qr3 color "white") as [e4|img]; simpl.
  { rewrite <- !app_assoc. eexists. split; [done|]. simpl.
    split; [|by eexists]. by eexists [_]. }
  destruct (Image_save img BytesIO_new _) as [e5|io]; simpl.
  all: rewrite <- !app_assoc; eexists; (split; [done|]); simpl;
    (split; [|by eexists]); by eexists [].
Qed.

(** With a level of the service's own class the operation raises exactly what
    the first failing library call raised, and returns when none failed. *)
Lemma generate_Svc_level contentType content size color c format w :
  fst (generate_qr_code uuid_source contentType content size color
         (Svc c) format w) =
    match encoder_outcome (constant_of_level c) content size color
            (img_format_of format) with
    | inl e => Raise e
    | inr _ =>
        Return {| success := true;
                  message := "QR Code generated successfully.";
                  qrCodeId := uuid_source (uuid_drawn w);
                  qrCodeURL := "/path/to/qr/" ++ uuid_source (uuid_drawn w)
                                 ++ "." ++ lower (img_format_of format) |}
    end.
Proof.
  run_generate. fold (img_format_of format). unfold encoder_outcome.
  destruct (QRCode_init _ _ _ _) as [e1|qr1]; [done|].
  destruct (QRCode_add_data qr1 content) as [e2|qr2]; [done|].
  destruct (QRCode_make qr2 true) as [e3|qr3]; [done|].
  destruct (QRCode_make_image qr3 color "white") as [e4|img]; [done|].
  by destruct (Image_save img BytesIO_new _) as [e5|io].
Qed.

(** C2, what the code does.  When an operation raises an exception [e] of
    a class deriving from [Exception], the route's [except] block logs one
    line, builds the dictionary with the single entry ["error"] -> [str(e)]
    and hands it as [content] to [Response]; the constructor calls
    [content.encode], which a dictionary does not have, so the block raises
    [AttributeError] and the route returns no response of its own, on the
    verify route and on the generate route alike. *)
Theorem failure_handler_raises_AttributeError (e : Exn) :
  exn_is_Exception e = true ->
  Response_init
    (Content_dict (jsonable_encoder (<["error" := exn_str e]> ∅))) 500
    "application/json"
  = inl (AttributeError "'dict' object has no attribute 'encode'")
  /\ (forall api_key w w',
        api_key_verification api_key w = (Raise e, w') ->
        api_post_api_key_verification api_key w =
          (Raise (AttributeError "'dict' object has no attribute 'encode'"),
           {| db := db w'; uuid_drawn := uuid_drawn w';
              encoder_calls := encoder_calls w';
              log := (log w' ++ ["Error processing request"])%list |}))
  /\ (forall contentType content size color correctionLevel format w w',
        generate_qr_code uuid_source (Prisma contentType) content size color
          (Prisma correctionLevel) (Prisma format) w = (Raise e, w') ->
        api_post_generate_qr_code uuid_source contentType content size
          color correctionLevel format w =
          (Raise (AttributeError "'dict' object has no attribute 'encode'"),
           {| db := db w'; uuid_drawn := uuid_drawn w';
              encoder_calls := encoder_calls w';
              log := (log w' ++ ["Error processing request"])%list |})).
Proof.
  intros He. split; [reflexivity|]. split.
  - intros api_key w w' Hop.
    unfold api_post_api_key_verification. by apply (route_catches _ e).
  - intros contentType content size color correctionLevel format w w' Hop.
    unfold api_post_generate_qr_code. by apply (route_catches _ e).
Qed.

(** C3.  What the operation hands to the [QRCode] constructor.  In the
    trace of library calls, every constructor call a request adds has
    [box_size] equal to [size // 40] (floor division) and [border] equal to
    4, and with a level of the service's [CorrectionLevel] the first call is
    the constructor with version 1, the level's constant, that box size and
    that border.  And for every library it is the constructor's verdict on
    exactly these arguments that decides: if the constructor raises on
    (1, constant, [size // 40], 4) the operation raises that exception, and
    if the operation returns, the constructor returned on them. *)
Theorem encoder_box_size_and_border
    contentType content size color level format w :
  (exists calls,
     encoder_calls
       (snd (generate_qr_code uuid_source contentType content size color
               level format w))
     = (encoder_calls w ++ calls)%list
     /\ (forall version ec box_size border,
           Call_QRCode version ec box_size border ∈ calls ->
           box_size = size `div` 40 /\ border = 4)
     /\ (forall c, level = Svc c ->
           exists rest,
             calls = Call_QRCode 1 (constant_of_level c) (size `div` 40) 4
                       :: rest))
  /\ (forall c, level = Svc c ->
        (forall e,
           QRCode_init 1 (constant_of_level c) (size `div` 40) 4 = inl e ->
           fst (generate_qr_code uuid_source contentType content size color
                  level format w) = Raise e)
        /\ (forall r w',
              generate_qr_code uuid_source contentType content size color
                level format w = (Return r, w') ->
              exists qr,
                QRCode_init 1 (constant_of_level c) (size `div` 40) 4
                = inr qr)).
Proof.
  split.
  - destruct (generate_calls contentType content size color level format w)
      as (calls & Htrace & Hcalls).
    exists calls. split; [done|]. destruct level as [c|c].
    + destruct Hcalls as [Hpre Hfirst]. split.
      * intros version ec box_size border Hin.
        destruct Hpre as [tl Hpre].
        assert (Hin' : Call_QRCode version ec box_size border ∈
                       calls_of_request (constant_of_level c) content size
                         color (img_format_of format)).
        { rewrite Hpre. apply elem_of_app. by left. }
        unfold calls_of_request in Hin'.
        repeat (apply elem_of_cons in Hin' as [Hin'|Hin'];
                [by inversion Hin'|]).
        by apply elem_of_nil in Hin'.
      * by intros c' [= <-].
    + subst calls. split; [|done].
      intros version ec box_size border Hin. by apply elem_of_nil in Hin.
  - intros c ->. split.
    + intros e Hinit. rewrite generate_Svc_level.
      unfold encoder_outcome. by rewrite Hinit.
    + intros r w' Hgen.
      apply generate_Return_inv in Hgen
        as (c' & qr1 & qr2 & qr3 & img & io & [= <-] & Hinit & _).
      by exists qr1.
Qed.

Lemma img_format_of_Svc (format : Format.t) :
  img_format_of (Svc format) = Format.name format.
Proof. by destruct format. Qed.

(** C5.  A generation call that returns, made with a member of the service's
    [Format], returns [success = True], the message "QR Code generated
    successfully.", the identifier drawn in this call, and the location
    "/path/to/qr/" followed by that identifier, a dot and the format's name in
    lower case; so the location ends in ".png" for PNG and in ".svg" for
    SVG. *)
Theorem successful_response_shape
    contentType content size color level (format : Format.t) w r w' :
  generate_qr_code uuid_source contentType content size color
    level (Svc format) w = (Return r, w') ->
  success r = true
  /\ message r = "QR Code generated successfully."
  /\ qrCodeId r = uuid_source (uuid_drawn w)
  /\ qrCodeURL r = "/path/to/qr/" ++ qrCodeId r ++ "."
                     ++ lower (Format.name format)
  /\ (format = Format.PNG ->
      qrCodeURL r = ("/path/to/qr/" ++ qrCodeId r) ++ ".png")
  /\ (format = Format.SVG ->
      qrCodeURL r = ("/path/to/qr/" ++ qrCodeId r) ++ ".svg").
Proof.
  intros Hgen.
  apply generate_Return_inv in Hgen
    as (c & qr1 & qr2 & qr3 & img & io & _ & _ & _ & _ & _ & _ & -> & _).
  rewrite img_format_of_Svc. simpl. repeat split.
  - by intros ->.
  - by intros ->.
Qed.

(** C6.  The declared content type is not looked at: two generation calls
    that differ in nothing but the content type, started in the same process
    state (so the same identifier is drawn), give the same outcome and leave
    the same state, the trace of library calls included; the same holds on
    the route. *)
Theorem content_type_is_not_interpreted
    (contentType1 contentType2 : ContentTypeArg)
    (routeType1 routeType2 : prisma_enums.ContentType.t)
    content size color level format correctionLevel routeFormat w :
  generate_qr_code uuid_source contentType1 content size color level format w
  = generate_qr_code uuid_source contentType2 content size color level format w
  /\ api_post_generate_qr_code uuid_source routeType1 content size color
       correctionLevel routeFormat w
     = api_post_generate_qr_code uuid_source routeType2 content size color
         correctionLevel routeFormat w.
Proof.
  split.
  - reflexivity.
  - unfold api_post_generate_qr_code. reflexivity.
Qed.

(** C7.  Provided the identifier source never repeats a value, a generation
    call that returns and a later one with the same parameters that returns
    (started in the state the first one left, or in any state reached from it
    by further draws) carry different identifiers: each call that returns
    draws one new identifier and reports it. *)
Theorem successive_calls_get_different_ids
    contentType content size color level format w r1 w1 w1' r2 w2 :
  (forall i j : nat, i <> j -> uuid_source i <> uuid_source j) ->
  generate_qr_code uuid_source contentType content size color
    level format w = (Return r1, w1) ->
  (uuid_drawn w1 <= uuid_drawn w1')%nat ->
  generate_qr_code uuid_source contentType content size color
    level format w1' = (Return r2, w2) ->
  uuid_drawn w1 = S (uuid_drawn w)
  /\ qrCodeId r1 <> qrCodeId r2.
Proof.
  intros Hfresh Hgen1 Hlater Hgen2.
  apply generate_Return_inv in Hgen1
    as (c & qr1 & qr2 & qr3 & img & io & _ & _ & _ & _ & _ & _ & -> & ->).
  apply generate_Return_inv in Hgen2
    as (c' & qr1' & qr2' & qr3' & img' & io' & _ & _ & _ & _ & _ & _ & -> & _).
  simpl in *. split; [done|]. apply Hfresh. lia.
Qed.

(** C10.  The generation operation has one return statement, and the value
    it returns has [success = True]: a call that returns never reports
    [success = False], and a call that does not return has raised. *)
Theorem generation_returns_only_success
    contentType content size color level format w :
  (forall r w',
     generate_qr_code uuid_source contentType content size color
       level format w = (Return r, w') ->
     success r = true)
  /\ ((exists r w',
         generate_qr_code uuid_source contentType content size color
           level format w = (Return r, w')
         /\ success r = true)
      \/ (exists e w',
            generate_qr_code uuid_source contentType content size color
              level format w = (Raise e, w'))).
Proof.
  split.
  - intros r w' Hgen.
    by apply generate_Return_inv in Hgen
      as (c & qr1 & qr2 & qr3 & img & io & _ & _ & _ & _ & _ & _ & -> & _).
  - destruct (generate_qr_code uuid_source contentType content size color
                level format w) as [[r|e] w'] eqn:Hgen.
    + left. exists r, w'. split; [done|].
      by apply generate_Return_inv in Hgen
        as (c & qr1 & qr2 & qr3 & img & io & _ & _ & _ & _ & _ & _ & -> & _).
    + right. by exists e, w'.
Qed.

(** C4, as amended.  For a requested size below 40 the box size handed to
    the constructor is [size // 40], which is zero for sizes from 0 to 39 and
    negative for negative sizes, so never positive.  If the library's
    constructor refuses a box size that is not positive, then every such
    request made with a level of the service's [CorrectionLevel] fails in
    the operation: [generate_qr_code] raises the exception the constructor
    raised on (1, constant, [size // 40], 4), draws no identifier, and
    returns no response. *)
Theorem small_size_is_rejected (size : Z) :
  (forall version ec box_size border,
     box_size <= 0 -> exists e, QRCode_init version ec box_size border = inl e) ->
  size < 40 ->
  size `div` 40 <= 0
  /\ (0 <= size -> size `div` 40 = 0)
  /\ (size < 0 -> size `div` 40 < 0)
  /\ (forall contentType content color c format w,
        exists e,
          QRCode_init 1 (constant_of_level c) (size `div` 40) 4 = inl e
          /\ generate_qr_code uuid_source contentType content size color
               (Svc c) format w =
               (Raise e,
                {| db := db w; uuid_drawn := uuid_drawn w;
                   encoder_calls :=
                     (encoder_calls w ++
                      [Call_QRCode 1 (constant_of_level c) (size `div` 40) 4])
                     %list;
                   log := log w |})).
Proof.
  intros Hrejects Hsize.
  assert (Hbox : size `div` 40 <= 0).
  { assert (size `div` 40 < 1); [|lia].
    apply Z.div_lt_upper_bound; lia. }
  repeat split; [done| | |].
  - intros Hpos. apply Z.div_small. lia.
  - intros Hneg. apply Z.div_lt_upper_bound; lia.
  - intros contentType content color c format w.
    destruct (Hrejects 1 (constant_of_level c) (size `div` 40) 4 Hbox)
      as [e He].
    exists e. split; [done|]. run_generate. by rewrite He.
Qed.

(** C8, what the code does on the route.  The route hands the operation the
    member of [prisma.enums.CorrectionLevel] it was called with; the keys of
    [error_correction_mapping] are the members of the service's own
    [CorrectionLevel]; so for each of the four levels the lookup finds
    nothing, the operation raises [KeyError] before the library is called,
    and the route returns no model for any request. *)
Theorem route_level_lookup_raises_KeyError
    contentType content size color correctionLevel format w :
  error_correction_mapping !! (Prisma correctionLevel : CorrectionLevelArg)
  = None
  /\ generate_qr_code uuid_source (Prisma contentType) content size color
       (Prisma correctionLevel) (Prisma format) w =
       (Raise (KeyError (repr_level (Prisma correctionLevel))), w)
  /\ (forall r w',
        api_post_generate_qr_code uuid_source contentType content size color
          correctionLevel format w <> (Return (inl r), w')).
Proof.
  split; [apply error_correction_mapping_Prisma|]. split.
  - apply generate_Prisma_level.
  - intros r w'. unfold api_post_generate_qr_code.
    by rewrite (route_catches _ _ _ _
                  (generate_Prisma_level (Prisma contentType) content size
                     color correctionLevel (Prisma format) w) eq_refl).
Qed.

Lemma service_level_lookup_succeeds (c : CorrectionLevel.t) (w : World) :
  getitem error_correction_mapping (Svc c) w
  = (Return (constant_of_level c), w)
  /\ redundancy_percent (constant_of_level CorrectionLevel.L)
     < redundancy_percent (constant_of_level CorrectionLevel.M)
     < redundancy_percent (constant_of_level CorrectionLevel.Q)
  /\ redundancy_percent (constant_of_level CorrectionLevel.Q)
     < redundancy_percent (constant_of_level CorrectionLevel.H).
Proof. split; [apply getitem_Svc|]. simpl. lia. Qed.

(** A format that is not a member of the service's own [Format] compares
    unequal to [Format.PNG], so the image is saved as, and the location named
    after, SVG. *)
Lemma foreign_format_counts_as_svg (f : prisma_enums.Format.t) :
  img_format_of (Prisma f) = "SVG".
Proof. by destruct f. Qed.

End GenerationProperties.
(** ** The properties at concrete requests *)

Lemma uuid_double_fresh (i j : nat) : i <> j -> uuid_double i <> uuid_double j.
Proof.
  intros Hij Heq. apply Hij. unfold uuid_double in Heq. simpl in Heq.
  injection Heq as Heq. by apply (inj pretty).
Qed.

Lemma qrcode_double_rejects_box_size version ec box_size border :
  box_size <= 0 ->
  exists e, QRCode_init (QRCodeLib := qrcode_double) version ec box_size border
            = inl e.
Proof. intros Hbox. simpl. rewrite bool_decide_true; by eauto. Qed.

Lemma example_generation :
  generate_qr_code (lib := qrcode_double) uuid_double
    (Svc ContentType.URL) "https://example.com" 300 "#00008B"
    (Svc CorrectionLevel.Q) (Svc Format.PNG) example_world
  = (Return example_response, example_world_after).
Proof. by vm_compute. Qed.

Lemma failure_handler_raises_AttributeError_witness :
  api_key_verification "bogus" down_world = (Raise down_error, down_world)
  /\ api_post_api_key_verification "bogus" down_world =
       (Raise (AttributeError "'dict' object has no attribute 'encode'"),
        {| db := DbDown down_error; uuid_drawn := 0; encoder_calls := [];
           log := ["Error processing request"] |}).
Proof.
  split; [reflexivity|].
  exact (proj1 (proj2 (failure_handler_raises_AttributeError
                         (lib := qrcode_double) uuid_double down_error
                         eq_refl))
           "bogus" down_world down_world eq_refl).
Defined.

Lemma encoder_box_size_and_border_witness :
  (exists rest,
     encoder_calls example_world_after
     = Call_QRCode 1 ERROR_CORRECT_Q 7 4 :: rest)
  /\ exists qr,
       QRCode_init (QRCodeLib := qrcode_double) 1 ERROR_CORRECT_Q
         (300 `div` 40) 4 = inr qr.
Proof.
  destruct (encoder_box_size_and_border (lib := qrcode_double) uuid_double
              (Svc ContentType.URL) "https://example.com" 300 "#00008B"
              (Svc CorrectionLevel.Q) (Svc Format.PNG) example_world)
    as ((calls & Htrace & _ & Hfirst) & Hlib).
  split.
  - destruct (Hfirst CorrectionLevel.Q eq_refl) as [rest ->].
    exists rest. rewrite example_generation in Htrace. exact Htrace.
  - exact (proj2 (Hlib CorrectionLevel.Q eq_refl)
             example_response example_world_after example_generation).
Defined.

(** C4 does not hold for every size below 40: for the size -1 the box size
    handed to the constructor is -1 and not zero. *)
Lemma negative_size_scale_is_not_zero :
  ~ (forall (size : Z) (w : World),
       size < 40 ->
       exists rest,
         encoder_calls
           (snd (generate_qr_code (lib := qrcode_double) uuid_double
                   (Svc ContentType.URL) "https://example.com" size "#00008B"
                   (Svc CorrectionLevel.Q) (Svc Format.PNG) w))
         = (encoder_calls w ++ Call_QRCode 1 ERROR_CORRECT_Q 0 4 :: rest)%list).
Proof.
  intros Hclaim.
  destruct (Hclaim (-1) example_world) as [rest Hrest]; [lia|].
  vm_compute in Hrest. discriminate Hrest.
Qed.

Lemma small_size_is_rejected_witness :
  39 `div` 40 = 0
  /\ exists e,
       generate_qr_code (lib := qrcode_double) uuid_double
         (Svc ContentType.URL) "https://example.com" 39 "#00008B"
         (Svc CorrectionLevel.Q) (Svc Format.PNG) example_world
       = (Raise e,
          {| db := DbUp example_rows; uuid_drawn := 0;
             encoder_calls := [Call_QRCode 1 ERROR_CORRECT_Q 0 4];
             log := [] |}).
Proof.
  destruct (small_size_is_rejected (lib := qrcode_double) uuid_double 39
              qrcode_double_rejects_box_size ltac:(lia))
    as (_ & Hzero & _ & Hop).
  split; [apply Hzero; lia|].
  destruct (Hop (Svc ContentType.URL) "https://example.com" "#00008B"
              CorrectionLevel.Q (Svc Format.PNG) example_world)
    as (e & _ & Hraise).
  exists e. exact Hraise.
Defined.

Lemma successful_response_shape_witness :
  success example_response = true
  /\ message example_response = "QR Code generated successfully."
  /\ qrCodeURL example_response =
       ("/path/to/qr/" ++ qrCodeId example_response) ++ ".png".
Proof.
  destruct (successful_response_shape (lib := qrcode_double) uuid_double
              (Svc ContentType.URL) "https://example.com" 300 "#00008B"
              (Svc CorrectionLevel.Q) Format.PNG example_world
              example_response example_world_after example_generation)
    as (Hsuccess & Hmessage & _ & _ & Hpng & _).
  split; [exact Hsuccess|]. split; [exact Hmessage|]. exact (Hpng eq_refl).
Defined.

Lemma second_generation :
  fst (generate_qr_code (lib := qrcode_double) uuid_double
         (Svc ContentType.URL) "https://example.com" 300 "#00008B"
         (Svc CorrectionLevel.Q) (Svc Format.PNG) example_world_after)
  = Return second_response.
Proof. by vm_compute. Qed.

Lemma successive_calls_get_different_ids_witness :
  qrCodeId example_response <> qrCodeId second_response.
Proof.
  pose proof second_generation as Hsecond.
  destruct (generate_qr_code (lib := qrcode_double) uuid_double
              (Svc ContentType.URL) "https://example.com" 300 "#00008B"
              (Svc CorrectionLevel.Q) (Svc Format.PNG) example_world_after)
    as [res w2] eqn:Hgen2.
  simpl in Hsecond. subst res.
  apply (successive_calls_get_different_ids (lib := qrcode_double) uuid_double
           (Svc ContentType.URL) "https://example.com" 300 "#00008B"
           (Svc CorrectionLevel.Q) (Svc Format.PNG)
           example_world example_response example_world_after
           example_world_after second_response w2
           uuid_double_fresh example_generation (le_n _) Hgen2).
Defined.

Lemma generation_returns_only_success_witness :
  success example_response = true.
Proof.
  apply (proj1 (generation_returns_only_success (lib := qrcode_double)
                  uuid_double (Svc ContentType.URL) "https://example.com" 300
                  "#00008B" (Svc CorrectionLevel.Q) (Svc Format.PNG)
                  example_world)
           example_response example_world_after).
  exact example_generation.
Defined.

(** C8 at the request of the specification's end-to-end example: the
    operation raises the [KeyError] for the level Q. *)
Example route_example_request_fails :
  generate_qr_code (lib := qrcode_double) uuid_double
    (Prisma prisma_enums.ContentType.URL) "https://example.com" 300 "#00008B"
    (Prisma prisma_enums.CorrectionLevel.Q) (Prisma prisma_enums.Format.PNG)
    example_world
  = (Raise (KeyError "<CorrectionLevel.Q: 'Q'>"), example_world).
Proof. reflexivity. Qed.

(** * Further properties of the code *)

(** ** api_key_verification *)

(** X1.  With the store reachable, the operation returns, and it reports a
    key as valid exactly when some row of the table carries that very key
    (compared as it is, character by character); the id and role it reports
    are those of a row that carries the key.  Uniqueness of [apiKey] is not
    needed for this. *)
Theorem verification_valid_iff_key_stored
    (rows : list User) (api_key : string) (w : World) :
  db w = DbUp rows ->
  exists r,
    api_key_verification api_key w = (Return r, w)
    /\ (is_valid r = true <-> exists u, u ∈ rows /\ User_apiKey u = api_key)
    /\ (forall i, user_id r = Some i ->
          exists u, u ∈ rows /\ User_apiKey u = api_key
                    /\ User_id u = i /\ role r = Some (User_role u)).
Proof.
  intros Hdb.
  unfold api_key_verification, bind, find_unique_apiKey, ret. rewrite Hdb.
  destruct (List.find _ rows) as [u|] eqn:Hfind.
  - apply find_some in Hfind as [Hin Hkey].
    apply bool_decide_eq_true in Hkey. apply list_elem_of_In in Hin.
    eexists. split; [done|]. simpl. split.
    + split; [|done]. intros _. by exists u.
    + intros i [= <-]. by exists u.
  - eexists. split; [done|]. simpl. split; [|done].
    split; [done|]. intros (u & Hin & Hkey).
    apply list_elem_of_In in Hin.
    pose proof (find_none _ _ Hfind u Hin) as Hno. simpl in Hno.
    apply bool_decide_eq_false in Hno. done.
Qed.

Lemma verification_valid_iff_key_stored_witness :
  exists r,
    api_key_verification "KEY-BOB" example_world = (Return r, example_world)
    /\ (is_valid r = true <->
        exists u, u ∈ example_rows /\ User_apiKey u = "KEY-BOB").
Proof.
  destruct (verification_valid_iff_key_stored example_rows "KEY-BOB"
              example_world eq_refl) as (r & Hrun & Hvalid & _).
  exists r. split; [exact Hrun | exact Hvalid].
Defined.

(** X2.  In every response the operation returns, the id and the role are
    present together with [is_valid = True] and absent together with
    [is_valid = False]. *)
Theorem verification_response_consistent
    (api_key : string) (w w' : World) (r : APIKeyVerificationResponse) :
  api_key_verification api_key w = (Return r, w') ->
  (is_valid r = true /\ is_Some (user_id r) /\ is_Some (role r))
  \/ (is_valid r = false /\ user_id r = None /\ role r = None).
Proof.
  unfold api_key_verification, bind, find_unique_apiKey, ret.
  destruct (db w) as [rows|e]; [|done].
  destruct (List.find _ rows) as [u|]; intros [= <- <-]; simpl.
  - left. by eauto.
  - right. done.
Qed.

Lemma verification_response_consistent_witness :
  (is_valid {| is_valid := true; user_id := Some "u2"; role := Some "USER" |}
   = true
   /\ is_Some (Some "u2") /\ is_Some (Some "USER"))
  \/ (true = false /\ Some "u2" = None /\ Some "USER" = None).
Proof.
  apply (verification_response_consistent "key-bob" example_world
           example_world
           {| is_valid := true; user_id := Some "u2"; role := Some "USER" |}).
  reflexivity.
Defined.

(** X3.  What a request on the verify route does to the process: it never
    touches the store, the identifier source or the encoder.  With the store
    reachable it returns the model and logs nothing.  With the store failing
    with an exception of a class deriving from [Exception] it logs exactly
    one line and then raises the [AttributeError] of its own [except] block:
    it returns no [Response].  Any other exception passes through the route
    unlogged. *)
Theorem verify_route_effects (api_key : string) (w : World) :
  db (snd (api_post_api_key_verification api_key w)) = db w
  /\ uuid_drawn (snd (api_post_api_key_verification api_key w)) = uuid_drawn w
  /\ encoder_calls (snd (api_post_api_key_verification api_key w))
     = encoder_calls w
  /\ (forall rows, db w = DbUp rows ->
        (exists r, fst (api_post_api_key_verification api_key w)
                   = Return (inl r))
        /\ log (snd (api_post_api_key_verification api_key w)) = log w)
  /\ (forall e, db w = DbDown e -> exn_is_Exception e = true ->
        fst (api_post_api_key_verification api_key w)
        = Raise (AttributeError "'dict' object has no attribute 'encode'")
        /\ log (snd (api_post_api_key_verification api_key w))
           = (log w ++ ["Error processing request"])%list)
  /\ (forall e, db w = DbDown e -> exn_is_Exception e = false ->
        api_post_api_key_verification api_key w = (Raise e, w)).
Proof.
  unfold api_post_api_key_verification.
  destruct (db w) as [rows|e] eqn:Hdb.
  - assert (Hop : exists r, api_key_verification api_key w = (Return r, w)).
    { unfold api_key_verification, bind, find_unique_apiKey, ret.
      rewrite Hdb. destruct (List.find _ rows); by eauto. }
    destruct Hop as [r Hop]. rewrite (route_passes _ _ _ _ Hop). simpl.
    repeat split; try done. by exists r.
  - assert (Hop : api_key_verification api_key w = (Raise e, w)).
    { unfold api_key_verification, bind, find_unique_apiKey. by rewrite Hdb. }
    destruct (exn_is_Exception e) eqn:He.
    + rewrite (route_catches _ _ _ _ Hop He). simpl.
      repeat split; try done; intros; simplify_eq; congruence.
    + rewrite (route_lets_through _ _ _ _ Hop He). simpl.
      repeat split; try done; intros; simplify_eq; congruence.
Qed.

Lemma verify_route_effects_witness :
  (exists r, fst (api_post_api_key_verification "bogus" example_world)
             = Return (inl r))
  /\ fst (api_post_api_key_verification "bogus" down_world)
     = Raise (AttributeError "'dict' object has no attribute 'encode'")
  /\ log (snd (api_post_api_key_verification "bogus" down_world))
     = ["Error processing request"]
  /\ api_post_api_key_verification "bogus" cancelled_world
     = (Raise cancelled_error, cancelled_world).
Proof.
  destruct (verify_route_effects "bogus" example_world)
    as (_ & _ & _ & Hup & _).
  destruct (verify_route_effects "bogus" down_world)
    as (_ & _ & _ & _ & Hdown & _).
  destruct (verify_route_effects "bogus" cancelled_world)
    as (_ & _ & _ & _ & _ & Hpass).
  split; [exact (proj1 (Hup example_rows eq_refl))|].
  split; [exact (proj1 (Hdown down_error eq_refl eq_refl))|].
  split; [exact (proj2 (Hdown down_error eq_refl eq_refl))|].
  exact (Hpass cancelled_error eq_refl eq_refl).
Defined.

(** ** generate_qr_code *)

Section MoreGenerationProperties.

Context {lib : QRCodeLib}.
Variable uuid_source : nat -> string.

Ltac run_operation :=
  unfold generate_qr_code; unfold bind at 1;
  rewrite ?getitem_Svc, ?getitem_Prisma;
  unfold bind, qrcode_QRCode, qr_add_data, qr_make, qr_make_image, img_save,
    library_call, uuid4, ret; simpl.

(** The five calls of a complete run are pairwise different. *)
Lemma calls_of_request_NoDup ec content size color img_format :
  NoDup (calls_of_request ec content size color img_format).
Proof.
  unfold calls_of_request.
  repeat (apply NoDup_cons; split;
          [intros Hin;
           repeat (apply elem_of_cons in Hin as [Hin|Hin]; [discriminate|]);
           by apply elem_of_nil in Hin|]).
  apply NoDup_nil_2.
Qed.

(** X4.  The operation returns exactly when the level is a member of the
    service's own [CorrectionLevel] and every one of the five library calls
    (constructor, [add_data], [make], [make_image], [save]) returns; in every
    other case it raises. *)
Theorem generation_returns_iff
    contentType content size color level format w :
  (exists r w',
     generate_qr_code uuid_source contentType content size color
       level format w = (Return r, w'))
  <-> (exists c io,
         level = Svc c
         /\ encoder_outcome (constant_of_level c) content size color
              (img_format_of format) = inr io).
Proof.
  split.
  - intros (r & w' & Hgen).
    destruct level as [c|c]; [|by rewrite generate_Prisma_level in Hgen].
    pose proof (generate_Svc_level uuid_source contentType content size color
                  c format w) as Hfst.
    rewrite Hgen in Hfst. simpl in Hfst.
    destruct (encoder_outcome _ _ _ _ _) as [e|io] eqn:Hout; [done|].
    by exists c, io.
  - intros (c & io & -> & Hout).
    pose proof (generate_Svc_level uuid_source contentType content size color
                  c format w) as Hfst.
    rewrite Hout in Hfst.
    destruct (generate_qr_code uuid_source contentType content size color
                (Svc c) format w) as [res w'].
    simpl in Hfst. subst res. by eauto.
Qed.

(** X5.  What a call that returns has done, for every library: the
    constructor returned an object on (version 1, the level's constant,
    [size // 40], border 4); [add_data] on that object with the content
    string unchanged returned; [make] with [fit=True] returned; [make_image]
    with the requested fill colour on the fixed background "white" returned;
    and [save] of that image into a new buffer under the format name
    returned.  These five calls, in this order, are what the run added to
    the trace. *)
Theorem successful_generation_calls
    contentType content size color level format w r w' :
  generate_qr_code uuid_source contentType content size color
    level format w = (Return r, w') ->
  exists c qr1 qr2 qr3 img io,
    level = Svc c
    /\ QRCode_init 1 (constant_of_level c) (size `div` 40) 4 = inr qr1
    /\ QRCode_add_data qr1 content = inr qr2
    /\ QRCode_make qr2 true = inr qr3
    /\ QRCode_make_image qr3 color "white" = inr img
    /\ Image_save img BytesIO_new (img_format_of format) = inr io
    /\ encoder_calls w' =
         (encoder_calls w ++
          [ Call_QRCode 1 (constant_of_level c) (size `div` 40) 4;
            Call_add_data content;
            Call_make true;
            Call_make_image color "white";
            Call_save (img_format_of format) ])%list.
Proof.
  intros Hgen.
  apply generate_Return_inv in Hgen
    as (c & qr1 & qr2 & qr3 & img & io & -> & H1 & H2 & H3 & H4 & H5 & _ & ->).
  by exists c, qr1, qr2, qr3, img, io.
Qed.

(** X6.  Nothing is caught, replaced or retried inside the operation, for
    every library.  With a level of the service's own class the operation
    raises exactly the exception of the first library call that raised; an
    exception the operation raises is either the [KeyError] of the level
    lookup or one a library call raised; and a run adds at most five calls
    to the trace, none of them twice. *)
Theorem generation_never_retries
    contentType content size color level format w :
  (forall c e,
     level = Svc c ->
     encoder_outcome (constant_of_level c) content size color
       (img_format_of format) = inl e ->
     fst (generate_qr_code uuid_source contentType content size color
            level format w) = Raise e)
  /\ (forall e w',
        generate_qr_code uuid_source contentType content size color
          level format w = (Raise e, w') ->
        (exists c, level = Prisma c /\ e = KeyError (repr_level level))
        \/ (exists c,
              level = Svc c
              /\ encoder_outcome (constant_of_level c) content size color
                   (img_format_of format) = inl e))
  /\ (exists calls,
        encoder_calls
          (snd (generate_qr_code uuid_source contentType content size color
                  level format w))
        = (encoder_calls w ++ calls)%list
        /\ (List.length calls <= 5)%nat
        /\ NoDup calls).
Proof.
  split; [|split].
  - intros c e -> Hout. by rewrite generate_Svc_level, Hout.
  - intros e w' Hgen. destruct level as [c|c].
    + right. exists c. split; [done|].
      pose proof (generate_Svc_level uuid_source contentType content size
                    color c format w) as Hfst.
      rewrite Hgen in Hfst. simpl in Hfst.
      destruct (encoder_outcome _ _ _ _ _) as [e'|io]; [|done].
      by injection Hfst as ->.
    + left. exists c. split; [done|].
      rewrite generate_Prisma_level in Hgen. by injection Hgen as <- _.
  - destruct (generate_calls uuid_source contentType content size color level
                format w) as (calls & Htrace & Hcalls).
    exists calls. split; [done|].
    destruct level as [c|c].
    2:{ subst calls. simpl. split; [lia|apply NoDup_nil_2]. }
    destruct Hcalls as [Hpre _].
    split; [by apply prefix_length in Hpre|].
    pose proof (calls_of_request_NoDup (constant_of_level c) content size
                  color (img_format_of format)) as Hnd.
    destruct Hpre as [rest Hpre]. rewrite Hpre in Hnd.
    by apply NoDup_app in Hnd as [Hnd _].
Qed.

(** A call that raises has changed nothing but the trace of library calls. *)
Lemma generate_Raise_inv contentType content size color level format w e w' :
  generate_qr_code uuid_source contentType content size color
    level format w = (Raise e, w') ->
  db w' = db w /\ uuid_drawn w' = uuid_drawn w /\ log w' = log w.
Proof.
  destruct level as [c|c].
  2:{ rewrite generate_Prisma_level. by intros [= _ <-]. }
  run_operation.
  destruct (QRCode_init _ _ _ _) as [e1|qr1]; [by intros [= _ <-]|].
  destruct (QRCode_add_data qr1 content) as [e2|qr2]; [by intros [= _ <-]|].
  destruct (QRCode_make qr2 true) as [e3|qr3]; [by intros [= _ <-]|].
  destruct (QRCode_make_image qr3 color "white") as [e4|img];
    [by intros [= _ <-]|].
  by destruct (Image_save img BytesIO_new _) as [e5|io]; [intros [= _ <-]|].
Qed.

(** No call writes to the store or to the log. *)
Lemma generate_frame contentType content size color level format w :
  db (snd (generate_qr_code uuid_source contentType content size color
             level format w)) = db w
  /\ log (snd (generate_qr_code uuid_source contentType content size color
                 level format w)) = log w.
Proof.
  destruct (generate_qr_code uuid_source contentType content size color
              level format w) as [[r|e] w'] eqn:Hgen; simpl.
  - by apply generate_Return_inv in Hgen
      as (c & qr1 & qr2 & qr3 & img & io & _ & _ & _ & _ & _ & _ & _ & ->).
  - by apply generate_Raise_inv in Hgen as (Hdb & Huuid & Hlog).
Qed.

(** X7.  The operation writes neither to the store nor to the log, and it
    draws an identifier only at the very end: a call that raises leaves the
    identifier source as it was, a call that returns has drawn exactly
    one. *)
Theorem generation_draws_id_only_on_success
    contentType content size color level format w :
  db (snd (generate_qr_code uuid_source contentType content size color
             level format w)) = db w
  /\ log (snd (generate_qr_code uuid_source contentType content size color
                 level format w)) = log w
  /\ (forall e w',
        generate_qr_code uuid_source contentType content size color
          level format w = (Raise e, w') ->
        uuid_drawn w' = uuid_drawn w)
  /\ (forall r w',
        generate_qr_code uuid_source contentType content size color
          level format w = (Return r, w') ->
        uuid_drawn w' = S (uuid_drawn w)).
Proof.
  destruct (generate_qr_code uuid_source contentType content size color
              level format w) as [[r|e] w'] eqn:Hgen; simpl.
  - apply generate_Return_inv in Hgen
      as (c & qr1 & qr2 & qr3 & img & io & _ & _ & _ & _ & _ & _ & _ & ->).
    simpl. repeat split; try done. by intros; simplify_eq.
  - apply generate_Raise_inv in Hgen as (Hdb & Huuid & Hlog).
    repeat split; try done. by intros; simplify_eq.
Qed.

(** X8.  Every format that is not the member [PNG] of the service's own
    [Format] (its member [SVG], or any member of [prisma.enums.Format]) is
    saved under the name "SVG".  So with a library whose [save] refuses that
    name, as the library's default image class does, no such request
    returns: no location ending in ".svg" is ever reported. *)
Theorem svg_requests_fail_when_save_refuses_svg
    contentType content size color level (format : FormatArg) w :
  (forall img io, exists e, Image_save img io "SVG" = inl e) ->
  format <> Svc Format.PNG ->
  img_format_of format = "SVG"
  /\ exists e w',
       generate_qr_code uuid_source contentType content size color
         level format w = (Raise e, w').
Proof.
  intros Hrefuses Hformat.
  assert (Hsvg : img_format_of format = "SVG").
  { unfold img_format_of. by rewrite bool_decide_false. }
  split; [done|].
  destruct (generate_qr_code uuid_source contentType content size color
              level format w) as [[r|e] w'] eqn:Hgen; [|by eauto].
  apply generate_Return_inv in Hgen
    as (c & qr1 & qr2 & qr3 & img & io & _ & _ & _ & _ & _ & Hsave & _).
  rewrite Hsvg in Hsave.
  destruct (Hrefuses img BytesIO_new) as [e He]. congruence.
Qed.

Lemma string_length_app (a b : string) :
  String.length (a ++ b) = (String.length a + String.length b)%nat.
Proof. induction a as [|ch a IH]; simpl; [done|]. by rewrite IH. Qed.

Lemma string_app_inv_tail (a b s1 s2 : string) :
  String.length s1 = String.length s2 -> a ++ s1 = b ++ s2 -> a = b.
Proof.
  revert b. induction a as [|ch a IH]; intros [|ch' b] Hlen Heq; simpl in *.
  - done.
  - exfalso. apply (f_equal String.length) in Heq.
    rewrite !string_length_app in Heq. simpl in Heq. lia.
  - exfalso. apply (f_equal String.length) in Heq.
    rewrite !string_length_app in Heq. simpl in Heq. lia.
  - injection Heq as -> Heq. f_equal. by apply IH.
Qed.

Lemma lower_img_format_length (format : FormatArg) :
  String.length (lower (img_format_of format)) = 3%nat.
Proof. unfold img_format_of. by case_bool_decide. Qed.

(** X9.  The location determines the identifier: two calls that return,
    whatever their parameters, and report the same location report the same
    identifier; so responses with different identifiers never share a
    location. *)
Theorem location_determines_id
    contentType1 content1 size1 color1 level1 format1 w1 r1 w1'
    contentType2 content2 size2 color2 level2 format2 w2 r2 w2' :
  generate_qr_code uuid_source contentType1 content1 size1 color1
    level1 format1 w1 = (Return r1, w1') ->
  generate_qr_code uuid_source contentType2 content2 size2 color2
    level2 format2 w2 = (Return r2, w2') ->
  qrCodeURL r1 = qrCodeURL r2 ->
  qrCodeId r1 = qrCodeId r2.
Proof.
  intros Hgen1 Hgen2.
  apply generate_Return_inv in Hgen1
    as (c & qr1 & qr2 & qr3 & img & io & _ & _ & _ & _ & _ & _ & -> & _).
  apply generate_Return_inv in Hgen2
    as (c' & qr1' & qr2' & qr3' & img' & io' & _ & _ & _ & _ & _ & _ & -> & _).
  simpl. intros Hurl. injection Hurl as Hurl.
  eapply string_app_inv_tail; [|exact Hurl].
  by rewrite !string_length_app, !lower_img_format_length.
Qed.

(** X10.  The dictionary of lines 60-65 has an entry exactly for the four
    members of the service's own [CorrectionLevel], and it is one-to-one: two
    members with the same entry are the same member. *)
Theorem error_correction_mapping_table :
  (forall k : CorrectionLevelArg,
     is_Some (error_correction_mapping !! k) <-> exists c, k = Svc c)
  /\ (forall c1 c2 : CorrectionLevel.t,
        error_correction_mapping !! (Svc c1 : CorrectionLevelArg)
        = error_correction_mapping !! (Svc c2 : CorrectionLevelArg) ->
        c1 = c2)
  /\ size error_correction_mapping = 4%nat.
Proof.
  repeat split.
  - intros [v Hv]. destruct k as [c|c]; [by exists c|].
    by rewrite error_correction_mapping_Prisma in Hv.
  - intros [c ->]. by rewrite error_correction_mapping_Svc.
  - intros c1 c2. rewrite !error_correction_mapping_Svc.
    by destruct c1, c2.
Qed.

(** X12.  A generation request does not change what verification answers:
    the result of the verification operation after a generation call is the
    one it would have given before, and likewise for the two routes. *)
Theorem generation_does_not_affect_verification
    contentType content size color level format
    routeType correctionLevel routeFormat api_key w :
  fst (api_key_verification api_key
         (snd (generate_qr_code uuid_source contentType content size color
                 level format w)))
  = fst (api_key_verification api_key w)
  /\ fst (api_post_api_key_verification api_key
            (snd (api_post_generate_qr_code uuid_source routeType content
                    size color correctionLevel routeFormat w)))
     = fst (api_post_api_key_verification api_key w).
Proof.
  split.
  - apply api_key_verification_db. apply generate_frame.
  - apply verify_route_fst. unfold api_post_generate_qr_code.
    pose proof (generate_frame (Prisma routeType) content size color
                  (Prisma correctionLevel) (Prisma routeFormat) w)
      as [Hdb _].
    destruct (generate_qr_code uuid_source (Prisma routeType) content size
                color (Prisma correctionLevel) (Prisma routeFormat) w)
      as [[r|e] w'] eqn:Hgen; simpl in Hdb.
    + by rewrite (route_passes _ _ _ _ Hgen).
    + destruct (exn_is_Exception e) eqn:He.
      * by rewrite (route_catches _ _ _ _ Hgen He).
      * by rewrite (route_lets_through _ _ _ _ Hgen He).
Qed.

(** X13.  The operation keeps no state between requests: whether a request
    returns or raises, and with which exception, is the same in every process
    state, and the response depends on the state only through the identifier
    that is drawn. *)
Theorem generation_is_stateless
    contentType content size color level format w1 w2 :
  (forall e, (exists w1', generate_qr_code uuid_source contentType content
                            size color level format w1 = (Raise e, w1'))
             <-> (exists w2', generate_qr_code uuid_source contentType content
                                size color level format w2 = (Raise e, w2')))
  /\ (uuid_drawn w1 = uuid_drawn w2 ->
      fst (generate_qr_code uuid_source contentType content size color
             level format w1)
      = fst (generate_qr_code uuid_source contentType content size color
               level format w2)).
Proof.
  assert (Hfst : forall w,
            exists w', generate_qr_code uuid_source contentType content size
                         color level format w
                       = (fst (generate_qr_code uuid_source contentType
                                 content size color level format w), w')).
  { intros w. eexists. apply surjective_pairing. }
  destruct level as [c|c].
  2:{ split; [|by rewrite !generate_Prisma_level].
      intros e. rewrite !generate_Prisma_level.
      split; intros [w' [= <- _]]; by eauto. }
  pose proof (generate_Svc_level uuid_source contentType content size color c
                format w1) as H1.
  pose proof (generate_Svc_level uuid_source contentType content size color c
                format w2) as H2.
  split.
  - intros e.
    destruct (Hfst w1) as [w1' Hw1]. destruct (Hfst w2) as [w2' Hw2].
    rewrite Hw1, Hw2, H1, H2.
    destruct (encoder_outcome _ _ _ _ _) as [e'|io].
    + split; intros [w' [= <-]]; by eauto.
    + split; by intros [w' [=]].
  - intros Huuid. rewrite H1, H2, Huuid. done.
Qed.

End MoreGenerationProperties.
(** ** The further properties at concrete requests *)

Lemma generation_returns_iff_witness :
  exists r w',
    generate_qr_code (lib := qrcode_double) uuid_double
      (Svc ContentType.URL) "https://example.com" 300 "#00008B"
      (Svc CorrectionLevel.Q) (Svc Format.PNG) example_world = (Return r, w').
Proof.
  apply (proj2 (generation_returns_iff (lib := qrcode_double) uuid_double
                  (Svc ContentType.URL) "https://example.com" 300 "#00008B"
                  (Svc CorrectionLevel.Q) (Svc Format.PNG) example_world)).
  exists CorrectionLevel.Q. eexists. split; [reflexivity|].
  vm_compute. reflexivity.
Defined.

Lemma successful_generation_calls_witness :
  exists c qr1 qr2 qr3 img io,
    (Svc CorrectionLevel.Q : CorrectionLevelArg) = Svc c
    /\ QRCode_init (QRCodeLib := qrcode_double) 1 (constant_of_level c)
         (300 `div` 40) 4 = inr qr1
    /\ QRCode_add_data qr1 "https://example.com" = inr qr2
    /\ QRCode_make qr2 true = inr qr3
    /\ QRCode_make_image qr3 "#00008B" "white" = inr img
    /\ Image_save img BytesIO_new (img_format_of (Svc Format.PNG)) = inr io
    /\ encoder_calls example_world_after =
         (encoder_calls example_world ++
          [ Call_QRCode 1 (constant_of_level c) (300 `div` 40) 4;
            Call_add_data "https://example.com";
            Call_make true;
            Call_make_image "#00008B" "white";
            Call_save (img_format_of (Svc Format.PNG)) ])%list.
Proof.
  apply (successful_generation_calls (lib := qrcode_double) uuid_double
           (Svc ContentType.URL) "https://example.com" 300 "#00008B"
           (Svc CorrectionLevel.Q) (Svc Format.PNG) example_world
           example_response example_world_after).
  exact example_generation.
Defined.

Lemma generation_never_retries_witness :
  fst (generate_qr_code (lib := qrcode_double) uuid_double
         (Svc ContentType.TEXT) "hello" 39 "#000000"
         (Svc CorrectionLevel.L) (Svc Format.PNG) example_world)
  = Raise (ValueError "Invalid box size (was 0, expected larger than 0)").
Proof.
  apply (proj1 (generation_never_retries (lib := qrcode_double) uuid_double
                  (Svc ContentType.TEXT) "hello" 39 "#000000"
                  (Svc CorrectionLevel.L) (Svc Format.PNG) example_world)
           CorrectionLevel.L).
  - reflexivity.
  - vm_compute. reflexivity.
Defined.

Lemma generation_draws_id_only_on_success_witness :
  uuid_drawn example_world_after = S (uuid_drawn example_world)
  /\ uuid_drawn
       (snd (generate_qr_code (lib := qrcode_double) uuid_double
               (Svc ContentType.URL) "https://example.com" 39 "#00008B"
               (Svc CorrectionLevel.Q) (Svc Format.PNG) example_world_after))
     = uuid_drawn example_world_after.
Proof.
  split.
  - destruct (generation_draws_id_only_on_success (lib := qrcode_double)
                uuid_double (Svc ContentType.URL) "https://example.com" 300
                "#00008B" (Svc CorrectionLevel.Q) (Svc Format.PNG)
                example_world)
      as (_ & _ & _ & Hreturn).
    exact (Hreturn example_response example_world_after example_generation).
  - destruct (generate_qr_code (lib := qrcode_double) uuid_double
                (Svc ContentType.URL) "https://example.com" 39 "#00008B"
                (Svc CorrectionLevel.Q) (Svc Format.PNG) example_world_after)
      as [[r|e] w'] eqn:Hgen.
    + vm_compute in Hgen. discriminate Hgen.
    + destruct (generation_draws_id_only_on_success (lib := qrcode_double)
                  uuid_double (Svc ContentType.URL) "https://example.com" 39
                  "#00008B" (Svc CorrectionLevel.Q) (Svc Format.PNG)
                  example_world_after)
        as (_ & _ & Hraise & _).
      exact (Hraise e w' Hgen).
Defined.

Lemma qrcode_double_refuses_svg
    (img : Image (QRCodeLib := qrcode_double)) (io : BytesIO) :
  exists e, Image_save (QRCodeLib := qrcode_double) img io "SVG" = inl e.
Proof. eexists. reflexivity. Qed.

Lemma svg_requests_fail_when_save_refuses_svg_witness :
  exists e w',
    generate_qr_code (lib := qrcode_double) uuid_double
      (Svc ContentType.URL) "https://example.com" 300 "#00008B"
      (Svc CorrectionLevel.Q) (Svc Format.SVG) example_world = (Raise e, w').
Proof.
  apply (svg_requests_fail_when_save_refuses_svg (lib := qrcode_double)
           uuid_double (Svc ContentType.URL) "https://example.com" 300
           "#00008B" (Svc CorrectionLevel.Q) (Svc Format.SVG) example_world
           qrcode_double_refuses_svg).
  discriminate.
Defined.

Lemma location_determines_id_witness :
  match fst (generate_qr_code (lib := qrcode_double) uuid_double
               (Svc ContentType.TEXT) "hello" 80 "#000000"
               (Svc CorrectionLevel.L) (Svc Format.PNG) example_world) with
  | Return r => qrCodeId example_response = qrCodeId r
  | Raise _ => False
  end.
Proof.
  destruct (generate_qr_code (lib := qrcode_double) uuid_double
              (Svc ContentType.TEXT) "hello" 80 "#000000"
              (Svc CorrectionLevel.L) (Svc Format.PNG) example_world)
    as [[r|e] w'] eqn:Hgen; simpl.
  - apply (location_determines_id (lib := qrcode_double) uuid_double
             (Svc ContentType.URL) "https://example.com" 300 "#00008B"
             (Svc CorrectionLevel.Q) (Svc Format.PNG) example_world
             example_response example_world_after
             (Svc ContentType.TEXT) "hello" 80 "#000000"
             (Svc CorrectionLevel.L) (Svc Format.PNG) example_world
             r w' example_generation Hgen).
    vm_compute in Hgen. injection Hgen as <- _. reflexivity.
  - vm_compute in Hgen. discriminate Hgen.
Defined.

Lemma error_correction_mapping_table_witness :
  is_Some (error_correction_mapping
             !! (Svc CorrectionLevel.Q : CorrectionLevelArg))
  /\ ~ is_Some (error_correction_mapping
                  !! (Prisma prisma_enums.CorrectionLevel.Q
                      : CorrectionLevelArg)).
Proof.
  destruct error_correction_mapping_table as (Hdom & _ & _).
  split.
  - apply (proj2 (Hdom (Svc CorrectionLevel.Q))). by exists CorrectionLevel.Q.
  - intros Hsome.
    destruct (proj1 (Hdom (Prisma prisma_enums.CorrectionLevel.Q)) Hsome)
      as [c Hc].
    discriminate Hc.
Defined.

Lemma generation_is_stateless_witness :
  fst (generate_qr_code (lib := qrcode_double) uuid_double
         (Svc ContentType.URL) "https://example.com" 300 "#00008B"
         (Svc CorrectionLevel.Q) (Svc Format.PNG) example_world)
  = fst (generate_qr_code (lib := qrcode_double) uuid_double
           (Svc ContentType.URL) "https://example.com" 300 "#00008B"
           (Svc CorrectionLevel.Q) (Svc Format.PNG) down_world).
Proof.
  apply (proj2 (generation_is_stateless (lib := qrcode_double) uuid_double
                  (Svc ContentType.URL) "https://example.com" 300 "#00008B"
                  (Svc CorrectionLevel.Q) (Svc Format.PNG)
                  example_world down_world)).
  reflexivity.
Defined.

